(** * Smart links of the document manager: the views of [mayan.apps.linking]

    A shallow embedding of [mayan/apps/linking/views.py].  The views run in
    a small state-and-exception monad: the state holds the persisted
    tables, the access decisions of the ACL checker, the messages queued
    for the user and a ghost trace of the calls that matter for ordering
    properties (access checks, resolver calls, hand-over to the generic base
    class).  A raised exception leaves the state as it was at the [raise],
    as in Python. *)

From Stdlib Require Import ZArith List String Bool Lia.
Import ListNotations.
Local Open Scope Z_scope.

(** ** Exceptions *)

(** The subclasses of Python's [Exception] that the views meet.  [Http404]
    comes from [get_object_or_404], [PermissionDenied] from the ACL checker;
    [Error] stands for any other [Exception] (a query or template error of
    the resolver).  Each carries the text that [str] returns. *)
Inductive Exception : Type :=
| Http404 (text : string)
| PermissionDenied (text : string)
| Error (text : string).

Definition str (e : Exception) : string :=
  match e with
  | Http404 t => t
  | PermissionDenied t => t
  | Error t => t
  end.

Inductive outcome (A : Type) : Type :=
| Return (a : A)
| Raise (e : Exception).
Arguments Return {A} a.
Arguments Raise {A} e.

(** ** Data model *)

Record User : Type := { user_id : Z }.

Record Document : Type := {
  document_pk : Z;
  document_fields : list (string * Z)
}.

Record DocumentType : Type := {
  document_type_pk : Z;
  document_type_label : string
}.

Record SmartLink : Type := {
  smart_link_pk : Z;
  smart_link_label : string
}.

(** What a condition compares the target's field with: a reference to a
    field of the source document, which is substituted at resolution, or a
    literal. *)
Inductive Expression : Type :=
| FieldRef (name : string)
| Literal (value : Z).

Inductive Operator : Type :=
| OpEq
| OpLt
| OpGt.

(** A condition belongs to one smart link.  [foreign_document] is carried
    as data; resolution does not read it. *)
Record SmartLinkCondition : Type := {
  condition_pk : Z;
  condition_smart_link_id : Z;
  source_expression : Expression;
  operator : Operator;
  target_field : string;
  foreign_document : bool;
  negated : bool;
  enabled : bool
}.

(** permissions.py of the linking app and of the documents app *)
Inductive Permission : Type :=
| permission_document_view
| permission_smart_link_create
| permission_smart_link_delete
| permission_smart_link_edit
| permission_smart_link_view.

(** The object handed to [check_access] as [obj]. *)
Inductive Obj : Type :=
| ObjDocument (d : Document)
| ObjDocumentType (t : DocumentType)
| ObjSmartLink (s : SmartLink)
| ObjCondition (c : SmartLinkCondition).

(** The persisted store.  [smart_link_document_types] is the through table
    of the many-to-many field [SmartLink.document_types], one row
    (smart link pk, document type pk) per assignment.  [access] is the
    decision of the ACL checker, [check_access(object, permission, user)]. *)
Record Store : Type := {
  documents : list Document;
  document_types : list DocumentType;
  smart_links : list SmartLink;
  conditions : list SmartLinkCondition;
  smart_link_document_types : list (Z * Z);
  access : Obj -> Permission -> User -> bool
}.

(** Ghost events. *)
Inductive Event : Type :=
| EvCheckAccess (obj : Obj) (permission : Permission) (user : User)
| EvResolve (s : SmartLink) (d : Document)
| EvSuperDispatch.

Record State : Type := {
  store : Store;
  messages : list string;
  trace : list Event
}.

(** ** The monad *)

Definition M (A : Type) : Type := State -> outcome A * State.

Definition ret {A} (a : A) : M A := fun st => (Return a, st).

Definition bind {A B} (m : M A) (k : A -> M B) : M B :=
  fun st =>
    match m st with
    | (Return a, st') => k a st'
    | (Raise e, st') => (Raise e, st')
    end.

Definition raise {A} (e : Exception) : M A := fun st => (Raise e, st).

(** [try: body / except Exception as e: handler e] *)
Definition try_except {A} (body : M A) (handler : Exception -> M A) : M A :=
  fun st =>
    match body st with
    | (Return a, st') => (Return a, st')
    | (Raise e, st') => handler e st'
    end.

Definition get_store : M Store := fun st => (Return (store st), st).

Definition put_store (s : Store) : M unit :=
  fun st =>
    (Return tt, {| store := s; messages := messages st; trace := trace st |}).

Definition log (ev : Event) : M unit :=
  fun st =>
    (Return tt,
     {| store := store st; messages := messages st;
        trace := trace st ++ [ev] |}).

Declare Scope view_scope.
Delimit Scope view_scope with view.
Notation "x <- m ;; k" := (bind m (fun x => k))
  (at level 61, m at next level, right associativity) : view_scope.
Notation "m ;; k" := (bind m (fun _ => k))
  (at level 61, right associativity) : view_scope.
Local Open Scope view_scope.

(** ** Collaborators *)

(** [django.contrib.messages.error(message=..., request=...)] *)
Definition messages_error (message : string) : M unit :=
  fun st =>
    (Return tt,
     {| store := store st; messages := messages st ++ [message];
        trace := trace st |}).

(** Primary keys are 64-bit integers in the database. *)
Definition in_key_range (k : Z) : bool :=
  (- 2 ^ 63 <=? k) && (k <? 2 ^ 63).

(** How a lookup by primary key fails when no row has the key: with
    [Http404] for a key the database can hold, and with the driver's
    [OverflowError], which the lookup does not catch, for a key beyond the
    64-bit range. *)
Definition lookup_failure (model_name : string) (pk : Z) : Exception :=
  if in_key_range pk then
    Http404 ("No " ++ model_name ++ " matches the given query.")%string
  else Error "Python int too large to convert to SQLite INTEGER".

(** [django.shortcuts.get_object_or_404(klass=..., pk=...)] over a table.
    The key of a stored row is within the range of the database, so a key
    beyond it is never found. *)
Definition get_object_or_404 {A} (model_name : string)
    (table : Store -> list A) (key : A -> Z) (pk : Z) : M A :=
  db <- get_store ;;
  match find (fun o => key o =? pk) (table db) with
  | Some o => ret o
  | None => raise (lookup_failure model_name pk)
  end.

Definition insufficient_access : string := "Insufficient access."%string.

(** Modelled from the spec: [AccessControlList.objects.check_access] of
    [mayan.apps.acls], the ACL permission checker
    [check_access(object, permission, user) -> ok | fails]; it fails with
    [PermissionDenied]. *)
Definition check_access (obj : Obj) (permission : Permission) (user : User)
    : M unit :=
  log (EvCheckAccess obj permission user) ;;
  db <- get_store ;;
  if access db obj permission user then ret tt
  else raise (PermissionDenied insufficient_access).

(** ** Requests and view instances *)

Record Request : Type := { user : User }.

(** The keyword arguments that the URL patterns hand to a view. *)
Record Kwargs : Type := {
  document_id : Z;
  smart_link_id : Z;
  pk : Z
}.

Record View : Type := {
  request : Request;
  kwargs : Kwargs
}.

(** ** Model managers and related managers (Django's semantics) *)

Definition update_smart_link_document_types (db : Store)
    (rows : list (Z * Z)) : Store :=
  {| documents := documents db;
     document_types := document_types db;
     smart_links := smart_links db;
     conditions := conditions db;
     smart_link_document_types := rows;
     access := access db |}.

Definition is_row (s : SmartLink) (t : DocumentType) (row : Z * Z) : bool :=
  (fst row =? smart_link_pk s) && (snd row =? document_type_pk t).

Definition assigned (db : Store) (s : SmartLink) (t : DocumentType) : bool :=
  existsb (is_row s t) (smart_link_document_types db).

(** [smart_link.document_types.all()] *)
Definition document_types_all (db : Store) (s : SmartLink)
    : list DocumentType :=
  filter (assigned db s) (document_types db).

(** A row of the DocumentType table has the primary key of [item]. *)
Definition known_type (db : Store) (item : DocumentType) : bool :=
  existsb (fun t => document_type_pk t =? document_type_pk item)
    (document_types db).

(** What the database answers to a row that references a missing one. *)
Definition integrity_error : Exception :=
  Error "FOREIGN KEY constraint failed".

(** [smart_link.document_types.add(item)]: only a missing row is inserted,
    and the row must reference a stored document type; otherwise the
    insertion fails with [IntegrityError] and nothing is inserted. *)
Definition document_types_add (s : SmartLink) (item : DocumentType)
    : M unit :=
  db <- get_store ;;
  if assigned db s item then ret tt
  else if known_type db item then
    put_store
      (update_smart_link_document_types db
         (smart_link_document_types db
            ++ [(smart_link_pk s, document_type_pk item)]))
  else raise integrity_error.

(** [smart_link.document_types.remove(item)]: the matching rows are deleted. *)
Definition document_types_remove (s : SmartLink) (item : DocumentType)
    : M unit :=
  db <- get_store ;;
  put_store
    (update_smart_link_document_types db
       (filter (fun row => negb (is_row s item row))
          (smart_link_document_types db))).

(** [DocumentType.objects.exclude(pk__in=queryset)] *)
Definition exclude_pk_in (table queryset : list DocumentType)
    : list DocumentType :=
  filter
    (fun t =>
       negb (existsb (fun q => document_type_pk q =? document_type_pk t)
               queryset))
    table.

(** [smart_link.conditions.all()] *)
Definition conditions_all (db : Store) (s : SmartLink)
    : list SmartLinkCondition :=
  filter (fun c => condition_smart_link_id c =? smart_link_pk s)
    (conditions db).

(** [condition.smart_link]: the foreign key is followed to its row. *)
Definition condition_smart_link (c : SmartLinkCondition) : M SmartLink :=
  db <- get_store ;;
  match find (fun s => smart_link_pk s =? condition_smart_link_id c)
          (smart_links db) with
  | Some s => ret s
  | None => raise (Error "SmartLink matching query does not exist.")
  end.

(** The base classes of [mayan.apps.common.generics] and
    [mayan.apps.documents.views] are parameters of the views below; entering
    one is recorded in the trace. *)
Definition super_dispatch {A} (base : M A) : M A :=
  log EvSuperDispatch ;; base.

(** [django.urls.reverse(viewname=..., kwargs=...)], kept symbolic: the URL
    is the view name with its keyword arguments. *)
Record Url : Type := {
  url_viewname : string;
  url_kwargs : list (string * Z)
}.

Definition reverse (viewname : string) (kw : list (string * Z)) : Url :=
  {| url_viewname := viewname; url_kwargs := kw |}.

(** The values of a template context: model instances, texts, and whatever
    else a base class puts there. *)
Inductive ContextValue : Type :=
| CtxDocument (d : Document)
| CtxSmartLink (s : SmartLink)
| CtxCondition (c : SmartLinkCondition)
| CtxText (text : string)
| CtxTuple (items : list string)
| CtxOther (repr : string).

(** A Python [dict] with text keys, as an association list without
    repeated keys: [d[k]], [d[k] = v] and [d.update(other)]. *)
Definition Context : Type := list (string * ContextValue).

Definition dict_get (k : string) (d : Context) : option ContextValue :=
  match find (fun kv => String.eqb (fst kv) k) d with
  | Some kv => Some (snd kv)
  | None => None
  end.

Fixpoint dict_set (k : string) (v : ContextValue) (d : Context) : Context :=
  match d with
  | [] => [(k, v)]
  | (k', v') :: d' =>
      if String.eqb k' k then (k, v) :: d' else (k', v') :: dict_set k v d'
  end.

Definition dict_update (d other : Context) : Context :=
  fold_left (fun acc kv => dict_set (fst kv) (snd kv) acc) other d.

(** The double quote character, for the titles that quote a label. *)
Definition dq : string := String (Ascii.ascii_of_nat 34) EmptyString.

(** ** class ResolvedSmartLinkView(DocumentListView) *)

Module ResolvedSmartLinkView.

(** The instance once [dispatch] has set [self.document] and
    [self.smart_link]. *)
Record Self : Type := {
  view : View;
  document : Document;
  smart_link : SmartLink
}.

Section WithModel.

(** [SmartLink.get_linked_document_for] of models.py: an exception or the
    queryset of linked documents. *)
Variable get_linked_document_for :
  Store -> SmartLink -> Document -> outcome (list Document).

Variable Response : Type.

(** [DocumentListView.dispatch], which is handed the overridden
    [get_document_queryset]. *)
Variable DocumentListView_dispatch :
  Self -> M (list Document) -> M Response.

Definition call_get_linked_document_for (s : SmartLink) (d : Document)
    : M (list Document) :=
  log (EvResolve s d) ;;
  db <- get_store ;;
  match get_linked_document_for db s d with
  | Return queryset => ret queryset
  | Raise e => raise e
  end.

(** [try: ... except PermissionDenied: pass / else: ...] *)
Definition unless_denied (body : M unit) (orelse : M unit) : M unit :=
  fun st =>
    match body st with
    | (Return _, st') => orelse st'
    | (Raise (PermissionDenied _), st') => (Return tt, st')
    | (Raise e, st') => (Raise e, st')
    end.

Definition get_document_queryset (self : Self) : M (list Document) :=
  try_except
    (call_get_linked_document_for (smart_link self) (document self))
    (fun exception =>
       let queryset := @nil Document in
       unless_denied
         (check_access (ObjSmartLink (smart_link self))
            permission_smart_link_edit (user (request (view self))))
         (messages_error
            ("Smart link query error: " ++ str exception)%string) ;;
       ret queryset).

Definition dispatch (self : View) : M Response :=
  document <- get_object_or_404 "Document" documents document_pk
                (document_id (kwargs self)) ;;
  smart_link <- get_object_or_404 "SmartLink" smart_links smart_link_pk
                  (smart_link_id (kwargs self)) ;;
  check_access (ObjDocument document) permission_document_view
    (user (request self)) ;;
  check_access (ObjSmartLink smart_link) permission_smart_link_view
    (user (request self)) ;;
  let self' :=
    {| view := self; document := document; smart_link := smart_link |} in
  super_dispatch
    (DocumentListView_dispatch self' (get_document_queryset self')).

End WithModel.

Section WithContext.

(** [SmartLink.get_dynamic_label] of models.py: an exception, [None] or a
    text. *)
Variable get_dynamic_label :
  Store -> SmartLink -> Document -> outcome (option string).

(** [str(document)], from [Document.__str__] of the documents app. *)
Variable document_str : Document -> string.

(** [DocumentListView.get_extra_context] *)
Variable DocumentListView_get_extra_context : Self -> M Context.

Definition call_get_dynamic_label (s : SmartLink) (d : Document)
    : M (option string) :=
  db <- get_store ;;
  match get_dynamic_label db s d with
  | Return label => ret label
  | Raise e => raise e
  end.

(** Python's truth value of [None] or a text. *)
Definition truthy (label : option string) : bool :=
  match label with
  | None => false
  | Some EmptyString => false
  | Some _ => true
  end.

Definition text_of (label : option string) : string :=
  match label with
  | None => "None"
  | Some text => text
  end.

Definition resolved_title (self : Self) (dynamic_label : option string)
    : string :=
  if truthy dynamic_label then
    ("Documents in smart link: " ++ text_of dynamic_label)%string
  else
    ("Documents in smart link " ++ dq ++ smart_link_label (smart_link self)
       ++ dq ++ " as related to " ++ dq ++ document_str (document self)
       ++ dq)%string.

Definition get_extra_context (self : Self) : M Context :=
  dynamic_label <- call_get_dynamic_label (smart_link self) (document self) ;;
  let title := resolved_title self dynamic_label in
  context <- DocumentListView_get_extra_context self ;;
  ret (dict_update context
         [("object"%string, CtxDocument (document self));
          ("title"%string, CtxText title)]).

End WithContext.

End ResolvedSmartLinkView.

(** ** class SetupSmartLinkDocumentTypesView(AssignRemoveView) *)

Module SetupSmartLinkDocumentTypesView.

Definition get_object (self : View) : M SmartLink :=
  get_object_or_404 "SmartLink" smart_links smart_link_pk
    (smart_link_id (kwargs self)).

Definition add (self : View) (item : DocumentType) : M unit :=
  o <- get_object self ;;
  document_types_add o item.

Definition remove (self : View) (item : DocumentType) : M unit :=
  o <- get_object self ;;
  document_types_remove o item.

Section WithChoices.

(** [AssignRemoveView.generate_choices] turns a queryset into the choices
    of a list box. *)
Variable Choice : Type.
Variable generate_choices : list DocumentType -> list Choice.

Definition left_list (self : View) : M (list Choice) :=
  o <- get_object self ;;
  db <- get_store ;;
  ret (generate_choices
         (exclude_pk_in (document_types db) (document_types_all db o))).

Definition right_list (self : View) : M (list Choice) :=
  o <- get_object self ;;
  db <- get_store ;;
  ret (generate_choices (document_types_all db o)).

End WithChoices.

End SetupSmartLinkDocumentTypesView.

(** ** class DocumentSmartLinkListView(SmartLinkListView) *)

Module DocumentSmartLinkListView.

Section WithBase.

Variable Response : Type.
Variable SmartLinkListView_dispatch : View -> Document -> M Response.

Definition dispatch (self : View) : M Response :=
  document <- get_object_or_404 "Document" documents document_pk
                (document_id (kwargs self)) ;;
  check_access (ObjDocument document) permission_document_view
    (user (request self)) ;;
  super_dispatch (SmartLinkListView_dispatch self document).

End WithBase.

End DocumentSmartLinkListView.

(** ** class SmartLinkConditionListView(SingleObjectListView) *)

Module SmartLinkConditionListView.

Definition get_smart_link (self : View) : M SmartLink :=
  get_object_or_404 "SmartLink" smart_links smart_link_pk
    (smart_link_id (kwargs self)).

Definition get_source_queryset (self : View) : M (list SmartLinkCondition) :=
  s <- get_smart_link self ;;
  db <- get_store ;;
  ret (conditions_all db s).

End SmartLinkConditionListView.

(** [SingleObjectMixin.get_object] for [model = SmartLinkCondition]: the row
    whose primary key is the [pk] keyword argument, or [Http404]. *)
Definition get_condition_object (self : View) : M SmartLinkCondition :=
  get_object_or_404 "SmartLinkCondition" conditions condition_pk
    (pk (kwargs self)).

(** ** class SmartLinkConditionCreateView(SingleObjectCreateView) *)

Module SmartLinkConditionCreateView.

Definition get_smart_link (self : View) : M SmartLink :=
  get_object_or_404 "SmartLink" smart_links smart_link_pk
    (smart_link_id (kwargs self)).

Definition get_instance_extra_data (self : View)
    : M (list (string * SmartLink)) :=
  s <- get_smart_link self ;;
  ret [("smart_link"%string, s)].

Definition get_post_action_redirect (self : View) : M Url :=
  s <- get_smart_link self ;;
  ret (reverse "linking:smart_link_condition_list"
         [("smart_link_id"%string, smart_link_pk s)]).

Definition get_queryset (self : View) : M (list SmartLinkCondition) :=
  s <- get_smart_link self ;;
  db <- get_store ;;
  ret (conditions_all db s).

Section WithText.

(** [str(smart_link)], from [SmartLink.__str__] of models.py. *)
Variable smart_link_str : SmartLink -> string.

Definition get_extra_context (self : View) : M Context :=
  named <- get_smart_link self ;;
  obj <- get_smart_link self ;;
  ret [("title"%string,
        CtxText
          ("Add new conditions to smart link: " ++ dq
             ++ smart_link_str named ++ dq)%string);
       ("object"%string, CtxSmartLink obj)].

End WithText.

Section WithBase.

Variable Response : Type.
Variable SingleObjectCreateView_dispatch : View -> M Response.

Definition dispatch (self : View) : M Response :=
  obj <- get_smart_link self ;;
  check_access (ObjSmartLink obj) permission_smart_link_edit
    (user (request self)) ;;
  super_dispatch (SingleObjectCreateView_dispatch self).

End WithBase.

End SmartLinkConditionCreateView.

(** ** class SmartLinkConditionEditView(SingleObjectEditView) *)

Module SmartLinkConditionEditView.

Definition get_post_action_redirect (self : View) : M Url :=
  condition <- get_condition_object self ;;
  s <- condition_smart_link condition ;;
  ret (reverse "linking:smart_link_condition_list"
         [("smart_link_id"%string, smart_link_pk s)]).

Definition get_extra_context (self : View) : M Context :=
  condition <- get_condition_object self ;;
  owned <- get_condition_object self ;;
  obj <- condition_smart_link owned ;;
  ret [("condition"%string, CtxCondition condition);
       ("navigation_object_list"%string,
        CtxTuple ["object"%string; "condition"%string]);
       ("object"%string, CtxSmartLink obj);
       ("title"%string, CtxText "Edit smart link condition")].

Section WithBase.

Variable Response : Type.
Variable SingleObjectEditView_dispatch : View -> M Response.

Definition dispatch (self : View) : M Response :=
  condition <- get_condition_object self ;;
  obj <- condition_smart_link condition ;;
  check_access (ObjSmartLink obj) permission_smart_link_edit
    (user (request self)) ;;
  super_dispatch (SingleObjectEditView_dispatch self).

End WithBase.

End SmartLinkConditionEditView.

(** ** class SmartLinkConditionDeleteView(SingleObjectDeleteView) *)

Module SmartLinkConditionDeleteView.

Definition get_post_action_redirect (self : View) : M Url :=
  condition <- get_condition_object self ;;
  s <- condition_smart_link condition ;;
  ret (reverse "linking:smart_link_condition_list"
         [("smart_link_id"%string, smart_link_pk s)]).

Section WithText.

(** [str(condition)], from [SmartLinkCondition.__str__] of models.py. *)
Variable condition_str : SmartLinkCondition -> string.

Definition get_extra_context (self : View) : M Context :=
  condition <- get_condition_object self ;;
  owned <- get_condition_object self ;;
  obj <- condition_smart_link owned ;;
  named <- get_condition_object self ;;
  ret [("condition"%string, CtxCondition condition);
       ("navigation_object_list"%string,
        CtxTuple ["object"%string; "condition"%string]);
       ("object"%string, CtxSmartLink obj);
       ("title"%string,
        CtxText
          ("Delete smart link condition: " ++ dq ++ condition_str named
             ++ dq ++ "?")%string)].

End WithText.

Section WithBase.

Variable Response : Type.
Variable SingleObjectDeleteView_dispatch : View -> M Response.

Definition dispatch (self : View) : M Response :=
  condition <- get_condition_object self ;;
  obj <- condition_smart_link condition ;;
  check_access (ObjSmartLink obj) permission_smart_link_edit
    (user (request self)) ;;
  super_dispatch (SingleObjectDeleteView_dispatch self).

End WithBase.

End SmartLinkConditionDeleteView.

(** ** The resolver *)

(** Modelled from the spec: the field lookup of the resolver (models.py),
    a document's current value for a field name. *)
Definition field_value (d : Document) (name : string) : option Z :=
  match find (fun kv => String.eqb (fst kv) name) (document_fields d) with
  | Some kv => Some (snd kv)
  | None => None
  end.

(** Modelled from the spec: the operator kinds of a condition (models.py),
    applied to the target's value and the substituted one. *)
Definition compare_values (op : Operator) (target source : Z) : bool :=
  match op with
  | OpEq => target =? source
  | OpLt => target <? source
  | OpGt => target >? source
  end.

(** Modelled from the spec: the substitution step of the resolver
    (models.py).  The value a condition compares against, for a given
    source document; a reference to a field that the source document lacks
    cannot be substituted. *)
Definition substitute (source : Document) (c : SmartLinkCondition)
    : outcome Z :=
  match source_expression c with
  | Literal v => Return v
  | FieldRef name =>
      match field_value source name with
      | Some v => Return v
      | None =>
          Raise (Error ("Cannot resolve field '" ++ name ++ "'")%string)
      end
  end.

Fixpoint substitute_all (source : Document) (cs : list SmartLinkCondition)
    : outcome (list (SmartLinkCondition * Z)) :=
  match cs with
  | [] => Return []
  | c :: cs' =>
      match substitute source c with
      | Raise e => Raise e
      | Return v =>
          match substitute_all source cs' with
          | Raise e => Raise e
          | Return vs => Return ((c, v) :: vs)
          end
      end
  end.

(** Modelled from the spec: one condition of the resolver (models.py) on a
    target document; the [negated] flag inverts the result. *)
Definition holds (target : Document) (cv : SmartLinkCondition * Z) : bool :=
  let (c, v) := cv in
  let plain :=
    match field_value target (target_field c) with
    | Some t => compare_values (operator c) t v
    | None => false
    end in
  if negated c then negb plain else plain.

(** Modelled from the spec: [SmartLink.get_linked_document_for], which lives
    in models.py of the linking app.  The enabled conditions of the smart
    link are taken in order; the source document's field values are
    substituted; a target document is linked when it satisfies all
    conditions, a negated condition being inverted.  A condition that
    cannot be evaluated raises. *)
Definition get_linked_document_for (db : Store) (s : SmartLink)
    (source : Document) : outcome (list Document) :=
  match substitute_all source (filter enabled (conditions_all db s)) with
  | Raise e => Raise e
  | Return cvs =>
      Return (filter (fun t => forallb (holds t) cvs) (documents db))
  end.

(** ** Observations on runs *)

Definition logged (st : State) (evs : list Event) : State :=
  {| store := store st; messages := messages st; trace := trace st ++ evs |}.

Definition informed (st : State) (texts : list string) : State :=
  {| store := store st; messages := messages st ++ texts; trace := trace st |}.

(** How often the resolver was called, and how often a generic base class
    was entered, according to a trace. *)
Definition resolutions (tr : list Event) : nat :=
  List.length
    (filter (fun ev => match ev with EvResolve _ _ => true | _ => false end)
       tr).

Definition handovers (tr : list Event) : nat :=
  List.length
    (filter (fun ev => match ev with EvSuperDispatch => true | _ => false end)
       tr).

Definition acting (u : User) (k : Kwargs) : View :=
  {| request := {| user := u |}; kwargs := k |}.

Definition resolving (u : User) (k : Kwargs) (d : Document) (s : SmartLink)
    : ResolvedSmartLinkView.Self :=
  {| ResolvedSmartLinkView.view := acting u k;
     ResolvedSmartLinkView.document := d;
     ResolvedSmartLinkView.smart_link := s |}.

Definition edit_check (self : ResolvedSmartLinkView.Self) : Event :=
  EvCheckAccess (ObjSmartLink (ResolvedSmartLinkView.smart_link self))
    permission_smart_link_edit
    (user (request (ResolvedSmartLinkView.view self))).

Definition may_edit (self : ResolvedSmartLinkView.Self) (st : State) : bool :=
  access (store st) (ObjSmartLink (ResolvedSmartLinkView.smart_link self))
    permission_smart_link_edit
    (user (request (ResolvedSmartLinkView.view self))).

(** The text queued for an editor when resolution fails. *)
Definition query_error (e : Exception) : string :=
  ("Smart link query error: " ++ str e)%string.


(** The store with other access decisions. *)
Definition with_access (db : Store)
    (decide : Obj -> Permission -> User -> bool) : Store :=
  {| documents := documents db;
     document_types := document_types db;
     smart_links := smart_links db;
     conditions := conditions db;
     smart_link_document_types := smart_link_document_types db;
     access := decide |}.

(** What the three condition views do once the owning smart link [s] is
    known: one check of the edit permission on [s], then either
    [PermissionDenied] or the generic base class. *)
Definition edit_guard {Response} (base : View -> M Response) (self : View)
    (s : SmartLink) (st : State) : outcome Response * State :=
  let check :=
    EvCheckAccess (ObjSmartLink s) permission_smart_link_edit
      (user (request self)) in
  if access (store st) (ObjSmartLink s) permission_smart_link_edit
       (user (request self))
  then base self (logged st [check; EvSuperDispatch])
  else (Raise (PermissionDenied insufficient_access), logged st [check]).


(** ** A small installation, for concrete runs *)

Module Sample.

Definition editor : User := {| user_id := 1 |}.
Definition viewer : User := {| user_id := 2 |}.
Definition stranger : User := {| user_id := 3 |}.

Definition invoice_a : Document :=
  {| document_pk := 1; document_fields := [("customer_id"%string, 42)] |}.
Definition invoice_b : Document :=
  {| document_pk := 2; document_fields := [("customer_id"%string, 42)] |}.
Definition invoice_c : Document :=
  {| document_pk := 3; document_fields := [("customer_id"%string, 7)] |}.
Definition memo : Document :=
  {| document_pk := 4; document_fields := [] |}.

Definition type_invoice : DocumentType :=
  {| document_type_pk := 1; document_type_label := "Invoice" |}.
Definition type_receipt : DocumentType :=
  {| document_type_pk := 2; document_type_label := "Receipt" |}.

Definition related_invoices : SmartLink :=
  {| smart_link_pk := 10; smart_link_label := "Related Invoices" |}.
Definition same_vendor : SmartLink :=
  {| smart_link_pk := 11; smart_link_label := "Same vendor" |}.
Definition everything : SmartLink :=
  {| smart_link_pk := 12; smart_link_label := "Everything" |}.

Definition by_customer : SmartLinkCondition :=
  {| condition_pk := 100; condition_smart_link_id := 10;
     source_expression := FieldRef "customer_id"; operator := OpEq;
     target_field := "customer_id"; foreign_document := true;
     negated := false; enabled := true |}.
Definition by_vendor : SmartLinkCondition :=
  {| condition_pk := 101; condition_smart_link_id := 11;
     source_expression := FieldRef "vendor_id"; operator := OpEq;
     target_field := "vendor_id"; foreign_document := true;
     negated := false; enabled := true |}.

(** The editor holds every permission, the viewer the two view
    permissions, the stranger none. *)
Definition grants (obj : Obj) (p : Permission) (u : User) : bool :=
  if user_id u =? 1 then true
  else if user_id u =? 2 then
    match p with
    | permission_document_view | permission_smart_link_view => true
    | _ => false
    end
  else false.

Definition db : Store :=
  {| documents := [invoice_a; invoice_b; invoice_c; memo];
     document_types := [type_invoice; type_receipt];
     smart_links := [related_invoices; same_vendor; everything];
     conditions := [by_customer; by_vendor];
     smart_link_document_types := [(10, 1)];
     access := grants |}.

Definition st0 : State := {| store := db; messages := []; trace := [] |}.

Definition as_user (u : User) (doc link cond : Z) : View :=
  acting u {| document_id := doc; smart_link_id := link; pk := cond |}.

Definition resolved (u : User) (d : Document) (s : SmartLink)
    : ResolvedSmartLinkView.Self :=
  resolving u
    {| document_id := document_pk d; smart_link_id := smart_link_pk s;
       pk := 0 |} d s.

(** A stand-in for the generic list view: it evaluates the queryset. *)
Definition list_documents (self : ResolvedSmartLinkView.Self)
    (queryset : M (list Document)) : M (list Document) := queryset.

(** A stand-in for a generic object view: it drops every condition. *)
Definition drop_conditions (self : View) : M unit :=
  db <- get_store ;;
  put_store
    {| documents := documents db;
       document_types := document_types db;
       smart_links := smart_links db;
       conditions := [];
       smart_link_document_types := smart_link_document_types db;
       access := access db |}.

(** A stand-in for [generate_choices]: primary key and label. *)
Definition choices (queryset : list DocumentType) : list (Z * string) :=
  map (fun t => (document_type_pk t, document_type_label t)) queryset.

(** Stand-ins for the dynamic label, [str(document)] and the context of
    the generic list view. *)
Definition label_of (db : Store) (s : SmartLink) (d : Document)
    : outcome (option string) :=
  if smart_link_pk s =? 10 then Return (Some "Invoices of one customer"%string)
  else if smart_link_pk s =? 11 then Raise (Error "Invalid template")
  else Return None.

Definition document_name (d : Document) : string :=
  if document_pk d =? 1 then "invoice-a.pdf" else "document".

Definition base_context (self : ResolvedSmartLinkView.Self) : M Context :=
  ret [("hide_links"%string, CtxOther "True");
       ("title"%string, CtxText "Documents")].

(** A stand-in for the generic smart link list view. *)
Definition list_smart_links (self : View) (d : Document)
    : M (list SmartLink) :=
  db <- get_store ;;
  ret (smart_links db).

End Sample.

(** The state with one more row in the through table. *)
Definition with_assignment (st : State) (s : SmartLink)
    (item : DocumentType) : State :=
  {| store :=
       update_smart_link_document_types (store st)
         (smart_link_document_types (store st)
            ++ [(smart_link_pk s, document_type_pk item)]);
     messages := messages st;
     trace := trace st |}.

(** Two states agree on everything but the rows of the through table. *)
Definition same_but_assignments (st st' : State) : Prop :=
  documents (store st') = documents (store st) /\
  document_types (store st') = document_types (store st) /\
  smart_links (store st') = smart_links (store st) /\
  conditions (store st') = conditions (store st) /\
  access (store st') = access (store st) /\
  messages st' = messages st /\
  trace st' = trace st.

Ltac run :=
  unfold bind, ret, raise, get_store, put_store, log, try_except,
    messages_error, super_dispatch; simpl.

(** * Properties *)

Import ResolvedSmartLinkView.

Lemma get_object_or_404_found {A} name (table : Store -> list A) key k st o :
  find (fun o => key o =? k) (table (store st)) = Some o ->
  get_object_or_404 name table key k st = (Return o, st).
Proof.
  intros Hfind. unfold get_object_or_404. run. now rewrite Hfind.
Qed.

Lemma get_object_or_404_missing {A} name (table : Store -> list A) key k st :
  find (fun o => key o =? k) (table (store st)) = None ->
  get_object_or_404 name table key k st = (Raise (lookup_failure name k), st).
Proof.
  intros Hfind. unfold get_object_or_404. run. now rewrite Hfind.
Qed.

Lemma check_access_run obj p u st :
  check_access obj p u st =
  (if access (store st) obj p u then Return tt
   else Raise (PermissionDenied insufficient_access),
   logged st [EvCheckAccess obj p u]).
Proof.
  unfold check_access, logged. run.
  now destruct (access (store st) obj p u).
Qed.

(** ** The resolved-documents view *)

Section Resolver.

Variable resolver : Store -> SmartLink -> Document -> outcome (list Document).

Lemma get_document_queryset_return self st queryset :
  resolver (store st) (smart_link self) (document self) = Return queryset ->
  get_document_queryset resolver self st =
  (Return queryset,
   logged st [EvResolve (smart_link self) (document self)]).
Proof.
  intros Hres.
  unfold get_document_queryset, call_get_linked_document_for, logged. run.
  now rewrite Hres.
Qed.

Lemma get_document_queryset_raise self st e :
  resolver (store st) (smart_link self) (document self) = Raise e ->
  get_document_queryset resolver self st =
  (Return [],
   informed
     (logged st [EvResolve (smart_link self) (document self);
                 edit_check self])
     (if may_edit self st then [query_error e] else [])).
Proof.
  intros Hres.
  unfold get_document_queryset, call_get_linked_document_for, unless_denied.
  run. rewrite Hres. rewrite check_access_run. simpl.
  unfold may_edit, informed, logged, edit_check, query_error. simpl.
  destruct (access (store st) (ObjSmartLink (smart_link self))
              permission_smart_link_edit (user (request (view self))));
    simpl; rewrite <- !app_assoc; simpl; try rewrite app_nil_r; reflexivity.
Qed.

(** The view never raises, whatever the resolver does. *)
Lemma get_document_queryset_total self st :
  exists queryset st',
    get_document_queryset resolver self st = (Return queryset, st').
Proof.
  destruct (resolver (store st) (smart_link self) (document self)) eqn:Hres.
  - rewrite (get_document_queryset_return _ _ _ Hres). eauto.
  - rewrite (get_document_queryset_raise _ _ _ Hres). eauto.
Qed.

End Resolver.

Lemma resolutions_app tr evs :
  resolutions (tr ++ evs) = (resolutions tr + resolutions evs)%nat.
Proof. unfold resolutions. now rewrite filter_app, length_app. Qed.

Lemma handovers_app tr evs :
  handovers (tr ++ evs) = (handovers tr + handovers evs)%nat.
Proof. unfold handovers. now rewrite filter_app, length_app. Qed.

(** C1.  When resolution of a smart link fails, a user without the edit
    permission on the smart link gets the empty queryset and no new message;
    a user with the edit permission gets the empty queryset and the message
    with the error text; and two users who agree on that permission get the
    same queryset, the same messages and the same store. *)
Theorem query_error_shown_to_editors_only
    (resolver : Store -> SmartLink -> Document -> outcome (list Document))
    (st : State) (k : Kwargs) (d : Document) (s : SmartLink)
    (e : Exception) (u1 u2 : User) :
  resolver (store st) s d = Raise e ->
  let result u := get_document_queryset resolver (resolving u k d s) st in
  let edits u :=
    access (store st) (ObjSmartLink s) permission_smart_link_edit u in
  (edits u1 = false ->
   fst (result u1) = Return [] /\
   messages (snd (result u1)) = messages st) /\
  (edits u1 = true ->
   fst (result u1) = Return [] /\
   messages (snd (result u1)) = messages st ++ [query_error e]) /\
  (edits u1 = edits u2 ->
   fst (result u1) = fst (result u2) /\
   messages (snd (result u1)) = messages (snd (result u2)) /\
   store (snd (result u1)) = store (snd (result u2))).
Proof.
  intros Hres result edits.
  assert (Hrun : forall u,
             result u =
             (Return [],
              informed
                (logged st [EvResolve s d; edit_check (resolving u k d s)])
                (if edits u then [query_error e] else []))).
  { intros u. unfold result.
    now rewrite (get_document_queryset_raise resolver (resolving u k d s)
                   st e Hres). }
  repeat split.
  - now rewrite Hrun.
  - rewrite Hrun, H. simpl. apply app_nil_r.
  - now rewrite Hrun.
  - rewrite Hrun, H. reflexivity.
  - now rewrite !Hrun.
  - rewrite !Hrun, H. reflexivity.
  - now rewrite !Hrun.
Qed.

(** C2.  When the resolver raises for a smart link and a source document,
    the view returns (it does not raise), the queryset it returns is empty,
    and the store is untouched. *)
Theorem query_error_yields_empty_queryset
    (resolver : Store -> SmartLink -> Document -> outcome (list Document))
    (self : Self) (st : State) (e : Exception) :
  resolver (store st) (smart_link self) (document self) = Raise e ->
  fst (get_document_queryset resolver self st) = Return [] /\
  store (snd (get_document_queryset resolver self st)) = store st.
Proof.
  intros Hres. rewrite (get_document_queryset_raise resolver self st e Hres).
  split; reflexivity.
Qed.

(** C4.  With the document and the smart link found, the resolved-documents
    view checks the document-view permission on the document and then the
    smart-link-view permission on the smart link.  If either is missing the
    view raises [PermissionDenied]: store and messages are as before, the
    resolver has not been called and the list view has not been entered.
    If both are held, the list view, which computes the queryset, starts
    only after the two checks. *)
Theorem resolved_view_checks_before_resolving
    (resolver : Store -> SmartLink -> Document -> outcome (list Document))
    (Response : Type)
    (base : Self -> M (list Document) -> M Response)
    (self : View) (st : State) (d : Document) (s : SmartLink) :
  find (fun o => document_pk o =? document_id (kwargs self))
    (documents (store st)) = Some d ->
  find (fun o => smart_link_pk o =? smart_link_id (kwargs self))
    (smart_links (store st)) = Some s ->
  let u := user (request self) in
  let sees_document :=
    access (store st) (ObjDocument d) permission_document_view u in
  let sees_link :=
    access (store st) (ObjSmartLink s) permission_smart_link_view u in
  let document_check :=
    EvCheckAccess (ObjDocument d) permission_document_view u in
  let link_check :=
    EvCheckAccess (ObjSmartLink s) permission_smart_link_view u in
  let self' := {| view := self; document := d; smart_link := s |} in
  let r := dispatch resolver Response base self st in
  (sees_document && sees_link = false ->
   fst r = Raise (PermissionDenied insufficient_access) /\
   store (snd r) = store st /\
   messages (snd r) = messages st /\
   resolutions (trace (snd r)) = resolutions (trace st) /\
   handovers (trace (snd r)) = handovers (trace st)) /\
  (sees_document && sees_link = true ->
   r = base self' (get_document_queryset resolver self')
         (logged st [document_check; link_check; EvSuperDispatch])).
Proof.
  intros Hdoc Hlink u sees_document sees_link document_check link_check
    self' r.
  assert (Hr : r =
    if sees_document then
      if sees_link then
        base self' (get_document_queryset resolver self')
          (logged st [document_check; link_check; EvSuperDispatch])
      else (Raise (PermissionDenied insufficient_access),
            logged st [document_check; link_check])
    else (Raise (PermissionDenied insufficient_access),
          logged st [document_check])).
  { unfold r, dispatch. unfold bind at 1.
    rewrite (get_object_or_404_found _ _ _ _ _ _ Hdoc). unfold bind at 1.
    rewrite (get_object_or_404_found _ _ _ _ _ _ Hlink). unfold bind at 1.
    rewrite check_access_run. simpl. fold u sees_document.
    destruct sees_document; [| reflexivity].
    unfold bind at 1. rewrite check_access_run. simpl. fold u sees_link.
    destruct sees_link.
    - unfold super_dispatch, log, bind, logged. simpl.
      rewrite <- !app_assoc. reflexivity.
    - unfold logged. simpl. rewrite <- !app_assoc. reflexivity. }
  split; intros Hperm; rewrite Hr.
  - destruct sees_document, sees_link; try discriminate; simpl;
      rewrite resolutions_app, handovers_app;
      unfold resolutions at 2, handovers at 2; simpl;
      repeat split; try reflexivity; lia.
  - apply andb_true_iff in Hperm as [-> ->]. reflexivity.
Qed.

(** ** The condition views *)

Lemma condition_smart_link_found c st s :
  find (fun s => smart_link_pk s =? condition_smart_link_id c)
    (smart_links (store st)) = Some s ->
  condition_smart_link c st = (Return s, st).
Proof.
  intros Hfind. unfold condition_smart_link. run. now rewrite Hfind.
Qed.

Lemma edit_guard_run {Response} (base : View -> M Response) self s st :
  (check_access (ObjSmartLink s) permission_smart_link_edit
     (user (request self)) ;;
   super_dispatch (base self)) st = edit_guard base self s st.
Proof.
  unfold edit_guard. unfold bind at 1. rewrite check_access_run. simpl.
  destruct (access (store st) (ObjSmartLink s) permission_smart_link_edit
              (user (request self))); [| reflexivity].
  unfold super_dispatch, log, bind, logged. simpl.
  rewrite <- app_assoc. reflexivity.
Qed.

(** C5.  Creating, editing and deleting a condition check the smart-link
    edit permission on the owning smart link and nothing else: the only
    access check made is on that smart link, and when it fails the view
    raises [PermissionDenied] with store and messages as before and without
    entering the generic view that would change anything. *)
Theorem condition_views_check_owning_smart_link
    (Response : Type) (base : View -> M Response) (self : View)
    (st : State) :
  (forall s,
     find (fun o => smart_link_pk o =? smart_link_id (kwargs self))
       (smart_links (store st)) = Some s ->
     SmartLinkConditionCreateView.dispatch Response base self st =
     edit_guard base self s st) /\
  (forall c s,
     find (fun o => condition_pk o =? pk (kwargs self))
       (conditions (store st)) = Some c ->
     find (fun o => smart_link_pk o =? condition_smart_link_id c)
       (smart_links (store st)) = Some s ->
     SmartLinkConditionEditView.dispatch Response base self st =
     edit_guard base self s st /\
     SmartLinkConditionDeleteView.dispatch Response base self st =
     edit_guard base self s st) /\
  (forall s,
     access (store st) (ObjSmartLink s) permission_smart_link_edit
       (user (request self)) = false ->
     edit_guard base self s st =
     (Raise (PermissionDenied insufficient_access),
      logged st [EvCheckAccess (ObjSmartLink s) permission_smart_link_edit
                   (user (request self))])).
Proof.
  split; [| split].
  - intros s Hlink.
    unfold SmartLinkConditionCreateView.dispatch,
      SmartLinkConditionCreateView.get_smart_link.
    unfold bind at 1. rewrite (get_object_or_404_found _ _ _ _ _ _ Hlink).
    apply edit_guard_run.
  - intros c s Hcond Hlink.
    unfold SmartLinkConditionEditView.dispatch,
      SmartLinkConditionDeleteView.dispatch, get_condition_object.
    split.
    + unfold bind at 1. rewrite (get_object_or_404_found _ _ _ _ _ _ Hcond).
      unfold bind at 1. rewrite (condition_smart_link_found _ _ _ Hlink).
      apply edit_guard_run.
    + unfold bind at 1. rewrite (get_object_or_404_found _ _ _ _ _ _ Hcond).
      unfold bind at 1. rewrite (condition_smart_link_found _ _ _ Hlink).
      apply edit_guard_run.
  - intros s Hdenied. unfold edit_guard. now rewrite Hdenied.
Qed.

(** ** Missing objects *)




(** ** Assigning document types *)

Import SetupSmartLinkDocumentTypesView.

Lemma is_row_same_pk s t t' row :
  document_type_pk t = document_type_pk t' ->
  is_row s t row = is_row s t' row.
Proof. intros Hpk. unfold is_row. now rewrite Hpk. Qed.

Lemma assigned_same_pk db s t t' :
  document_type_pk t = document_type_pk t' ->
  assigned db s t = assigned db s t'.
Proof.
  intros Hpk. unfold assigned.
  induction (smart_link_document_types db) as [| row rows IH]; simpl.
  - reflexivity.
  - now rewrite IH, (is_row_same_pk s t t' row Hpk).
Qed.

Lemma assigned_after_insert db s t rows :
  assigned
    (update_smart_link_document_types db
       (rows ++ [(smart_link_pk s, document_type_pk t)])) s t = true.
Proof.
  unfold assigned. simpl. rewrite existsb_app. simpl.
  unfold is_row at 2. simpl. rewrite !Z.eqb_refl. simpl.
  apply orb_true_r.
Qed.

Lemma filter_keeps_all {A} (f : A -> bool) l :
  existsb f l = false -> filter (fun x => negb (f x)) l = l.
Proof.
  induction l as [| x l IH]; simpl; intros H.
  - reflexivity.
  - apply orb_false_iff in H as [Hx Hl]. rewrite Hx. simpl.
    now rewrite IH.
Qed.

Lemma update_same_rows db :
  update_smart_link_document_types db (smart_link_document_types db) = db.
Proof. now destruct db. Qed.

Lemma add_run self item st s :
  find (fun o => smart_link_pk o =? smart_link_id (kwargs self))
    (smart_links (store st)) = Some s ->
  add self item st =
  if assigned (store st) s item then (Return tt, st)
  else if known_type (store st) item then
    (Return tt, with_assignment st s item)
  else (Raise integrity_error, st).
Proof.
  intros Hlink. unfold add, get_object. unfold bind at 1.
  rewrite (get_object_or_404_found _ _ _ _ _ _ Hlink).
  unfold document_types_add. run.
  destruct (assigned (store st) s item); [reflexivity |].
  now destruct (known_type (store st) item).
Qed.

Lemma add_twice self item st :
  (add self item ;; add self item) st = add self item st.
Proof.
  destruct (find (fun o => smart_link_pk o =? smart_link_id (kwargs self))
              (smart_links (store st))) as [s |] eqn:Hlink.
  - unfold bind. rewrite (add_run self item st s Hlink).
    destruct (assigned (store st) s item) eqn:Hin; simpl.
    + rewrite (add_run self item st s Hlink). now rewrite Hin.
    + destruct (known_type (store st) item); [| reflexivity].
      rewrite (add_run self item _ s); [| exact Hlink].
      unfold with_assignment at 1. simpl.
      now rewrite assigned_after_insert.
  - unfold bind, add, get_object. unfold bind.
    now rewrite (get_object_or_404_missing _ _ _ _ _ Hlink).
Qed.

Lemma remove_absent self item st s :
  find (fun o => smart_link_pk o =? smart_link_id (kwargs self))
    (smart_links (store st)) = Some s ->
  assigned (store st) s item = false ->
  remove self item st = (Return tt, st).
Proof.
  intros Hlink Hout. unfold remove, get_object. unfold bind at 1.
  rewrite (get_object_or_404_found _ _ _ _ _ _ Hlink).
  unfold document_types_remove. run.
  unfold assigned in Hout. rewrite (filter_keeps_all _ _ Hout).
  rewrite update_same_rows. now destruct st.
Qed.

(** C6.  Adding a document type to a smart link twice leaves the same state,
    hence the same right list, as adding it once; and removing a document
    type that is not assigned leaves the state, hence the right list, as it
    was. *)
Theorem add_and_remove_are_idempotent
    (Choice : Type) (generate_choices : list DocumentType -> list Choice)
    (self : View) (item : DocumentType) (st : State) :
  ((add self item ;; add self item) st = add self item st /\
   right_list Choice generate_choices self
     (snd ((add self item ;; add self item) st)) =
   right_list Choice generate_choices self (snd (add self item st))) /\
  (forall s,
     find (fun o => smart_link_pk o =? smart_link_id (kwargs self))
       (smart_links (store st)) = Some s ->
     assigned (store st) s item = false ->
     remove self item st = (Return tt, st) /\
     right_list Choice generate_choices self (snd (remove self item st)) =
     right_list Choice generate_choices self st).
Proof.
  split.
  - split; [apply add_twice | now rewrite add_twice].
  - intros s Hlink Hout.
    rewrite (remove_absent self item st s Hlink Hout). now split.
Qed.

Lemma assigned_of_listed db s t :
  existsb (fun q => document_type_pk q =? document_type_pk t)
    (document_types_all db s) = true ->
  assigned db s t = true.
Proof.
  intros H. apply existsb_exists in H as [q [Hq Hpk]].
  apply filter_In in Hq as [_ Hq]. apply Z.eqb_eq in Hpk.
  now rewrite <- (assigned_same_pk db s q t Hpk).
Qed.

Lemma listed_of_assigned db s t :
  In t (document_types db) ->
  assigned db s t = true ->
  existsb (fun q => document_type_pk q =? document_type_pk t)
    (document_types_all db s) = true.
Proof.
  intros Hin Hassigned. apply existsb_exists. exists t. split.
  - apply filter_In. now split.
  - apply Z.eqb_refl.
Qed.

Lemma available_iff db s t :
  In t (exclude_pk_in (document_types db) (document_types_all db s)) <->
  In t (document_types db) /\ assigned db s t = false.
Proof.
  unfold exclude_pk_in. rewrite filter_In. split.
  - intros [Hin Hnot]. split; [exact Hin |].
    apply negb_true_iff in Hnot.
    destruct (assigned db s t) eqn:Hassigned; [| reflexivity].
    now rewrite (listed_of_assigned db s t Hin Hassigned) in Hnot.
  - intros [Hin Hout]. split; [exact Hin |].
    apply negb_true_iff.
    destruct (existsb _ (document_types_all db s)) eqn:Hlisted;
      [| reflexivity].
    apply assigned_of_listed in Hlisted. congruence.
Qed.

(** C7.  For a smart link, the left list is built from exactly the document
    types that are not assigned to it and the right list from exactly those
    that are; no document type is in both, and every document type is in
    one of them. *)
Theorem left_and_right_lists_partition
    (Choice : Type) (generate_choices : list DocumentType -> list Choice)
    (self : View) (st : State) (s : SmartLink) :
  find (fun o => smart_link_pk o =? smart_link_id (kwargs self))
    (smart_links (store st)) = Some s ->
  let db := store st in
  let available :=
    exclude_pk_in (document_types db) (document_types_all db s) in
  let enabled_types := document_types_all db s in
  left_list Choice generate_choices self st =
  (Return (generate_choices available), st) /\
  right_list Choice generate_choices self st =
  (Return (generate_choices enabled_types), st) /\
  (forall t,
     In t available <-> In t (document_types db) /\ assigned db s t = false) /\
  (forall t,
     In t enabled_types <->
     In t (document_types db) /\ assigned db s t = true) /\
  (forall t, ~ (In t available /\ In t enabled_types)) /\
  (forall t, In t (document_types db) ->
             In t available \/ In t enabled_types).
Proof.
  intros Hlink db available enabled_types.
  assert (Hright : forall t,
             In t enabled_types <->
             In t (document_types db) /\ assigned db s t = true)
    by (intros t; apply filter_In).
  split; [| split; [| split; [| split; [| split]]]].
  - unfold left_list, get_object. unfold bind at 1.
    now rewrite (get_object_or_404_found _ _ _ _ _ _ Hlink).
  - unfold right_list, get_object. unfold bind at 1.
    now rewrite (get_object_or_404_found _ _ _ _ _ _ Hlink).
  - intros t. apply available_iff.
  - exact Hright.
  - intros t [Hleft Hin]. apply available_iff in Hleft as [_ Hout].
    apply Hright in Hin as [_ Hassigned]. congruence.
  - intros t Hin. destruct (assigned db s t) eqn:Hassigned.
    + right. now apply Hright.
    + left. now apply available_iff.
Qed.

(** C10.  The left and right lists do not depend on who asks or on what
    any user may access: two users, under any two access policies over the
    same tables, get the same left list and the same right list. *)
Theorem document_type_lists_ignore_the_user
    (Choice : Type) (generate_choices : list DocumentType -> list Choice)
    (k : Kwargs) (u1 u2 : User) (st : State)
    (policy1 policy2 : Obj -> Permission -> User -> bool) :
  let st1 :=
    {| store := with_access (store st) policy1;
       messages := messages st; trace := trace st |} in
  let st2 :=
    {| store := with_access (store st) policy2;
       messages := messages st; trace := trace st |} in
  fst (left_list Choice generate_choices (acting u1 k) st1) =
  fst (left_list Choice generate_choices (acting u2 k) st2) /\
  fst (right_list Choice generate_choices (acting u1 k) st1) =
  fst (right_list Choice generate_choices (acting u2 k) st2).
Proof.
  intros st1 st2. unfold left_list, right_list, get_object, get_object_or_404.
  run.
  destruct (find (fun o => smart_link_pk o =? smart_link_id k)
              (smart_links (store st))); simpl; split; reflexivity.
Qed.

(** ** Resolution *)




(** ** Concrete runs *)

Import Sample.

Lemma query_error_shown_to_editors_only_witness :
  get_linked_document_for db same_vendor invoice_a =
  Raise (Error "Cannot resolve field 'vendor_id'") /\
  messages
    (snd (get_document_queryset get_linked_document_for
            (resolved viewer invoice_a same_vendor) st0)) = [] /\
  messages
    (snd (get_document_queryset get_linked_document_for
            (resolved editor invoice_a same_vendor) st0)) =
  ["Smart link query error: Cannot resolve field 'vendor_id'"%string].
Proof.
  split; [reflexivity |].
  pose proof (query_error_shown_to_editors_only get_linked_document_for st0
                {| document_id := 1; smart_link_id := 11; pk := 0 |}
                invoice_a same_vendor
                (Error "Cannot resolve field 'vendor_id'")) as H.
  split.
  - destruct (H viewer editor eq_refl) as [Hviewer _].
    exact (proj2 (Hviewer eq_refl)).
  - destruct (H editor viewer eq_refl) as [_ [Heditor _]].
    exact (proj2 (Heditor eq_refl)).
Defined.

Lemma query_error_yields_empty_queryset_witness :
  fst (get_document_queryset get_linked_document_for
         (resolved editor invoice_a same_vendor) st0) = Return [].
Proof.
  exact (proj1 (query_error_yields_empty_queryset get_linked_document_for
                  (resolved editor invoice_a same_vendor) st0
                  (Error "Cannot resolve field 'vendor_id'") eq_refl)).
Defined.

Lemma resolved_view_checks_before_resolving_witness :
  fst (dispatch get_linked_document_for _ list_documents
         (as_user stranger 1 10 0) st0) =
  Raise (PermissionDenied insufficient_access) /\
  resolutions
    (trace (snd (dispatch get_linked_document_for _ list_documents
                   (as_user stranger 1 10 0) st0))) = 0%nat /\
  fst (dispatch get_linked_document_for _ list_documents
         (as_user viewer 1 10 0) st0) = Return [invoice_a; invoice_b].
Proof.
  destruct (resolved_view_checks_before_resolving get_linked_document_for _
              list_documents (as_user stranger 1 10 0) st0 invoice_a
              related_invoices eq_refl eq_refl) as [Hdenied _].
  destruct (Hdenied eq_refl) as [Hraise [_ [_ [Hnone _]]]].
  destruct (resolved_view_checks_before_resolving get_linked_document_for _
              list_documents (as_user viewer 1 10 0) st0 invoice_a
              related_invoices eq_refl eq_refl) as [_ Hallowed].
  split; [exact Hraise |]. split; [exact Hnone |].
  rewrite (Hallowed eq_refl). reflexivity.
Defined.

Lemma condition_views_check_owning_smart_link_witness :
  SmartLinkConditionDeleteView.dispatch _ drop_conditions
    (as_user viewer 1 10 100) st0 =
  (Raise (PermissionDenied insufficient_access),
   logged st0
     [EvCheckAccess (ObjSmartLink related_invoices)
        permission_smart_link_edit viewer]) /\
  fst (SmartLinkConditionCreateView.dispatch _ drop_conditions
         (as_user editor 1 10 0) st0) = Return tt.
Proof.
  destruct (condition_views_check_owning_smart_link _ drop_conditions
              (as_user viewer 1 10 100) st0) as [_ [Hobject Hguard]].
  destruct (Hobject by_customer related_invoices eq_refl eq_refl)
    as [_ Hdelete].
  destruct (condition_views_check_owning_smart_link _ drop_conditions
              (as_user editor 1 10 0) st0) as [Hcreate _].
  split.
  - rewrite Hdelete. exact (Hguard related_invoices eq_refl).
  - rewrite (Hcreate related_invoices eq_refl). reflexivity.
Defined.

Lemma add_and_remove_are_idempotent_witness :
  fst (right_list _ choices (as_user editor 1 10 0)
         (snd ((add (as_user editor 1 10 0) type_receipt ;;
                add (as_user editor 1 10 0) type_receipt) st0))) =
  Return [(1, "Invoice"%string); (2, "Receipt"%string)] /\
  remove (as_user editor 1 10 0) type_receipt st0 = (Return tt, st0).
Proof.
  destruct (add_and_remove_are_idempotent _ choices (as_user editor 1 10 0)
              type_receipt st0) as [[_ Htwice] Habsent].
  split.
  - rewrite Htwice. reflexivity.
  - exact (proj1 (Habsent related_invoices eq_refl eq_refl)).
Defined.

Lemma left_and_right_lists_partition_witness :
  left_list _ choices (as_user viewer 1 10 0) st0 =
  (Return [(2, "Receipt"%string)], st0) /\
  right_list _ choices (as_user viewer 1 10 0) st0 =
  (Return [(1, "Invoice"%string)], st0).
Proof.
  destruct (left_and_right_lists_partition _ choices
              (as_user viewer 1 10 0) st0 related_invoices eq_refl)
    as [Hleft [Hright _]].
  split; [exact Hleft | exact Hright].
Defined.





(** * Further properties of the views *)

(** ** Resolution in the view *)

(** X1.  Whatever the resolver does, [get_document_queryset] returns: it
    never raises, it leaves the store alone, and it queues at most one
    message, which is then the query error text. *)
Theorem get_document_queryset_never_raises
    (resolver : Store -> SmartLink -> Document -> outcome (list Document))
    (self : Self) (st : State) :
  exists queryset st',
    get_document_queryset resolver self st = (Return queryset, st') /\
    store st' = store st /\
    (messages st' = messages st \/
     exists e, messages st' = messages st ++ [query_error e]).
Proof.
  destruct (resolver (store st) (smart_link self) (document self))
    as [queryset | e] eqn:Hres.
  - rewrite (get_document_queryset_return resolver self st queryset Hres).
    eexists. eexists. split; [reflexivity |]. split; [reflexivity |].
    now left.
  - rewrite (get_document_queryset_raise resolver self st e Hres).
    eexists. eexists. split; [reflexivity |]. split; [reflexivity |].
    simpl. destruct (may_edit self st).
    + right. now exists e.
    + left. apply app_nil_r.
Qed.

(** X2.  When the resolver succeeds, the view hands its queryset on
    unchanged, makes no access check and queues no message; the outcome is
    the same for every user, editors included. *)
Theorem successful_resolution_is_passed_through
    (resolver : Store -> SmartLink -> Document -> outcome (list Document))
    (st : State) (k : Kwargs) (d : Document) (s : SmartLink)
    (queryset : list Document) (u1 u2 : User) :
  resolver (store st) s d = Return queryset ->
  get_document_queryset resolver (resolving u1 k d s) st =
  (Return queryset, logged st [EvResolve s d]) /\
  get_document_queryset resolver (resolving u1 k d s) st =
  get_document_queryset resolver (resolving u2 k d s) st.
Proof.
  intros Hres.
  rewrite (get_document_queryset_return resolver (resolving u1 k d s) st
             queryset Hres).
  rewrite (get_document_queryset_return resolver (resolving u2 k d s) st
             queryset Hres).
  split; reflexivity.
Qed.

Lemma successful_resolution_is_passed_through_witness :
  get_document_queryset get_linked_document_for
    (resolved editor invoice_a related_invoices) st0 =
  (Return [invoice_a; invoice_b],
   logged st0 [EvResolve related_invoices invoice_a]).
Proof.
  exact (proj1 (successful_resolution_is_passed_through
                  get_linked_document_for st0
                  {| document_id := 1; smart_link_id := 10; pk := 0 |}
                  invoice_a related_invoices [invoice_a; invoice_b] editor
                  viewer
                  eq_refl)).
Defined.

(** X3.  The smart link list of a document checks the document-view
    permission on that document, once, before the generic list view runs;
    without the permission it raises [PermissionDenied] and the list view is
    not entered. *)
Theorem document_smart_link_list_requires_document_view
    (Response : Type) (base : View -> Document -> M Response)
    (self : View) (st : State) (d : Document) :
  find (fun o => document_pk o =? document_id (kwargs self))
    (documents (store st)) = Some d ->
  let check :=
    EvCheckAccess (ObjDocument d) permission_document_view
      (user (request self)) in
  DocumentSmartLinkListView.dispatch Response base self st =
  if access (store st) (ObjDocument d) permission_document_view
       (user (request self))
  then base self d (logged st [check; EvSuperDispatch])
  else (Raise (PermissionDenied insufficient_access), logged st [check]).
Proof.
  intros Hdoc check. unfold DocumentSmartLinkListView.dispatch.
  unfold bind at 1. rewrite (get_object_or_404_found _ _ _ _ _ _ Hdoc).
  unfold bind at 1. rewrite check_access_run. simpl.
  destruct (access (store st) (ObjDocument d) permission_document_view
              (user (request self))); [| reflexivity].
  unfold super_dispatch, log, bind, logged. simpl.
  rewrite <- app_assoc. reflexivity.
Qed.

Lemma document_smart_link_list_requires_document_view_witness :
  fst (DocumentSmartLinkListView.dispatch _ list_smart_links
         (as_user stranger 1 0 0) st0) =
  Raise (PermissionDenied insufficient_access) /\
  fst (DocumentSmartLinkListView.dispatch _ list_smart_links
         (as_user viewer 1 0 0) st0) =
  Return [related_invoices; same_vendor; everything].
Proof.
  split.
  - rewrite (document_smart_link_list_requires_document_view _
               list_smart_links (as_user stranger 1 0 0) st0 invoice_a
               eq_refl).
    reflexivity.
  - rewrite (document_smart_link_list_requires_document_view _
               list_smart_links (as_user viewer 1 0 0) st0 invoice_a
               eq_refl).
    reflexivity.
Defined.

(** X4.  In the resolved-documents view a user who may not view the
    document is turned away at once: the only access check made is the one
    on the document, and the permission on the smart link is not looked
    at. *)
Theorem document_denial_skips_smart_link_check
    (resolver : Store -> SmartLink -> Document -> outcome (list Document))
    (Response : Type)
    (base : Self -> M (list Document) -> M Response)
    (self : View) (st : State) (d : Document) (s : SmartLink) :
  find (fun o => document_pk o =? document_id (kwargs self))
    (documents (store st)) = Some d ->
  find (fun o => smart_link_pk o =? smart_link_id (kwargs self))
    (smart_links (store st)) = Some s ->
  access (store st) (ObjDocument d) permission_document_view
    (user (request self)) = false ->
  dispatch resolver Response base self st =
  (Raise (PermissionDenied insufficient_access),
   logged st [EvCheckAccess (ObjDocument d) permission_document_view
                (user (request self))]).
Proof.
  intros Hdoc Hlink Hdenied. unfold dispatch.
  unfold bind at 1. rewrite (get_object_or_404_found _ _ _ _ _ _ Hdoc).
  unfold bind at 1. rewrite (get_object_or_404_found _ _ _ _ _ _ Hlink).
  unfold bind at 1. rewrite check_access_run. simpl.
  now rewrite Hdenied.
Qed.

Lemma document_denial_skips_smart_link_check_witness :
  trace (snd (dispatch get_linked_document_for _ list_documents
                (as_user stranger 1 10 0) st0)) =
  [EvCheckAccess (ObjDocument invoice_a) permission_document_view stranger].
Proof.
  rewrite (document_denial_skips_smart_link_check get_linked_document_for _
             list_documents (as_user stranger 1 10 0) st0 invoice_a
             related_invoices eq_refl eq_refl eq_refl).
  reflexivity.
Defined.

(** ** Assignment of document types, continued *)

Lemma found_has_key {A} (table : list A) (key : A -> Z) k o :
  find (fun o => key o =? k) table = Some o -> In o table /\ key o = k.
Proof.
  intros Hfind. apply find_some in Hfind as [Hin Hkey].
  split; [exact Hin | now apply Z.eqb_eq].
Qed.

Lemma is_row_pair s t s' t' :
  is_row s' t' (smart_link_pk s, document_type_pk t) =
  (smart_link_pk s' =? smart_link_pk s)
  && (document_type_pk t' =? document_type_pk t).
Proof.
  unfold is_row. simpl.
  now rewrite (Z.eqb_sym (smart_link_pk s)),
    (Z.eqb_sym (document_type_pk t)).
Qed.

Lemma is_row_exclusive s t s' t' row :
  is_row s t row = true ->
  is_row s' t' row =
  (smart_link_pk s' =? smart_link_pk s)
  && (document_type_pk t' =? document_type_pk t).
Proof.
  unfold is_row. intros H. apply andb_true_iff in H as [Hs Ht].
  apply Z.eqb_eq in Hs, Ht. rewrite Hs, Ht.
  now rewrite (Z.eqb_sym (smart_link_pk s)),
    (Z.eqb_sym (document_type_pk t)).
Qed.

Lemma assigned_same_pks db s s' t t' :
  smart_link_pk s = smart_link_pk s' ->
  document_type_pk t = document_type_pk t' ->
  assigned db s t = assigned db s' t'.
Proof.
  intros Hs Ht. unfold assigned, is_row. now rewrite Hs, Ht.
Qed.

Lemma known_type_of_member db item :
  In item (document_types db) -> known_type db item = true.
Proof.
  intros Hin. apply existsb_exists. exists item.
  split; [exact Hin | apply Z.eqb_refl].
Qed.

(** What is assigned after [document_types.add]: what was, and the pair
    added when the document type is a stored one. *)
Lemma assigned_after_add self item st s s' t' :
  find (fun o => smart_link_pk o =? smart_link_id (kwargs self))
    (smart_links (store st)) = Some s ->
  assigned (store (snd (add self item st))) s' t' =
  assigned (store st) s' t'
  || known_type (store st) item
     && ((smart_link_pk s' =? smart_link_pk s)
         && (document_type_pk t' =? document_type_pk item)).
Proof.
  intros Hlink. rewrite (add_run self item st s Hlink).
  destruct (assigned (store st) s item) eqn:Hin; simpl.
  - destruct ((smart_link_pk s' =? smart_link_pk s)
              && (document_type_pk t' =? document_type_pk item)) eqn:Hsame.
    + apply andb_true_iff in Hsame as [Hs Ht]. apply Z.eqb_eq in Hs, Ht.
      rewrite (assigned_same_pks _ s' s t' item Hs Ht), Hin. reflexivity.
    + now rewrite andb_false_r, orb_false_r.
  - destruct (known_type (store st) item); simpl.
    + unfold assigned. simpl. rewrite existsb_app. simpl.
      now rewrite is_row_pair, orb_false_r.
    + now rewrite orb_false_r.
Qed.

Lemma existsb_after_delete s item s' t' rows :
  existsb (is_row s' t')
    (filter (fun row => negb (is_row s item row)) rows) =
  existsb (is_row s' t') rows
  && negb ((smart_link_pk s' =? smart_link_pk s)
           && (document_type_pk t' =? document_type_pk item)).
Proof.
  induction rows as [| row rows IH]; simpl; [reflexivity |].
  destruct (is_row s item row) eqn:Hrow; simpl.
  - rewrite IH, (is_row_exclusive s item s' t' row Hrow).
    destruct ((smart_link_pk s' =? smart_link_pk s)
              && (document_type_pk t' =? document_type_pk item));
      simpl; [now rewrite !andb_false_r | reflexivity].
  - rewrite IH.
    destruct ((smart_link_pk s' =? smart_link_pk s)
              && (document_type_pk t' =? document_type_pk item)) eqn:Hsame;
      simpl.
    + apply andb_true_iff in Hsame as [Hs Ht]. apply Z.eqb_eq in Hs, Ht.
      unfold is_row in Hrow |- *. rewrite Hs, Ht, Hrow.
      now rewrite !andb_false_r.
    + now rewrite !andb_true_r.
Qed.

Lemma remove_run self item st s :
  find (fun o => smart_link_pk o =? smart_link_id (kwargs self))
    (smart_links (store st)) = Some s ->
  remove self item st =
  (Return tt,
   {| store :=
        update_smart_link_document_types (store st)
          (filter (fun row => negb (is_row s item row))
             (smart_link_document_types (store st)));
      messages := messages st;
      trace := trace st |}).
Proof.
  intros Hlink. unfold remove, get_object. unfold bind at 1.
  rewrite (get_object_or_404_found _ _ _ _ _ _ Hlink).
  unfold document_types_remove. run. reflexivity.
Qed.

(** What is assigned after [document_types.remove]: what was, but for the
    pair removed. *)
Lemma assigned_after_remove self item st s s' t' :
  find (fun o => smart_link_pk o =? smart_link_id (kwargs self))
    (smart_links (store st)) = Some s ->
  assigned (store (snd (remove self item st))) s' t' =
  assigned (store st) s' t'
  && negb ((smart_link_pk s' =? smart_link_pk s)
           && (document_type_pk t' =? document_type_pk item)).
Proof.
  intros Hlink. rewrite (remove_run self item st s Hlink). simpl.
  unfold assigned. simpl. apply existsb_after_delete.
Qed.

Lemma add_missing self item st :
  find (fun o => smart_link_pk o =? smart_link_id (kwargs self))
    (smart_links (store st)) = None ->
  snd (add self item st) = st.
Proof.
  intros Hlink. unfold add, get_object, bind.
  now rewrite (get_object_or_404_missing _ _ _ _ _ Hlink).
Qed.

Lemma remove_missing self item st :
  find (fun o => smart_link_pk o =? smart_link_id (kwargs self))
    (smart_links (store st)) = None ->
  snd (remove self item st) = st.
Proof.
  intros Hlink. unfold remove, get_object, bind.
  now rewrite (get_object_or_404_missing _ _ _ _ _ Hlink).
Qed.

Lemma right_list_run {Choice} (gen : list DocumentType -> list Choice)
    self st s :
  find (fun o => smart_link_pk o =? smart_link_id (kwargs self))
    (smart_links (store st)) = Some s ->
  right_list Choice gen self st =
  (Return (gen (document_types_all (store st) s)), st).
Proof.
  intros Hlink. unfold right_list, get_object. unfold bind at 1.
  now rewrite (get_object_or_404_found _ _ _ _ _ _ Hlink).
Qed.

Lemma left_list_run {Choice} (gen : list DocumentType -> list Choice)
    self st s :
  find (fun o => smart_link_pk o =? smart_link_id (kwargs self))
    (smart_links (store st)) = Some s ->
  left_list Choice gen self st =
  (Return
     (gen (exclude_pk_in (document_types (store st))
             (document_types_all (store st) s))), st).
Proof.
  intros Hlink. unfold left_list, get_object. unfold bind at 1.
  now rewrite (get_object_or_404_found _ _ _ _ _ _ Hlink).
Qed.

Lemma same_but_assignments_refl st : same_but_assignments st st.
Proof. repeat split. Qed.

Lemma add_frame self item st :
  same_but_assignments st (snd (add self item st)).
Proof.
  destruct (find (fun o => smart_link_pk o =? smart_link_id (kwargs self))
              (smart_links (store st))) as [s |] eqn:Hlink.
  - rewrite (add_run self item st s Hlink).
    destruct (assigned (store st) s item);
      [| destruct (known_type (store st) item)]; repeat split.
  - rewrite (add_missing self item st Hlink).
    apply same_but_assignments_refl.
Qed.

Lemma remove_frame self item st :
  same_but_assignments st (snd (remove self item st)).
Proof.
  destruct (find (fun o => smart_link_pk o =? smart_link_id (kwargs self))
              (smart_links (store st))) as [s |] eqn:Hlink.
  - rewrite (remove_run self item st s Hlink). repeat split.
  - rewrite (remove_missing self item st Hlink).
    apply same_but_assignments_refl.
Qed.

Lemma found_after {st st'} self s :
  same_but_assignments st st' ->
  find (fun o => smart_link_pk o =? smart_link_id (kwargs self))
    (smart_links (store st)) = Some s ->
  find (fun o => smart_link_pk o =? smart_link_id (kwargs self))
    (smart_links (store st')) = Some s.
Proof. intros [_ [_ [Hlinks _]]] Hlink. now rewrite Hlinks. Qed.

(** X5.  After a document type of the table has been added to a smart
    link, the right list is built from a queryset that holds it and the left
    list from one that does not; [add] itself returns normally. *)
Theorem added_document_type_is_listed
    (Choice : Type) (generate_choices : list DocumentType -> list Choice)
    (self : View) (item : DocumentType) (st : State) (s : SmartLink) :
  find (fun o => smart_link_pk o =? smart_link_id (kwargs self))
    (smart_links (store st)) = Some s ->
  In item (document_types (store st)) ->
  let st' := snd (add self item st) in
  fst (add self item st) = Return tt /\
  exists enabled_types available,
    right_list Choice generate_choices self st' =
    (Return (generate_choices enabled_types), st') /\
    left_list Choice generate_choices self st' =
    (Return (generate_choices available), st') /\
    In item enabled_types /\ ~ In item available.
Proof.
  intros Hlink Hin st'.
  pose proof (add_frame self item st) as Hframe. fold st' in Hframe.
  pose proof (found_after self s Hframe Hlink) as Hlink'.
  assert (Hassigned : assigned (store st') s item = true).
  { unfold st'. rewrite (assigned_after_add self item st s s item Hlink).
    rewrite (known_type_of_member _ _ Hin), !Z.eqb_refl.
    apply orb_true_r. }
  assert (Hin' : In item (document_types (store st'))).
  { destruct Hframe as [_ [Htypes _]]. now rewrite Htypes. }
  split.
  { rewrite (add_run self item st s Hlink),
      (known_type_of_member _ _ Hin).
    now destruct (assigned (store st) s item). }
  eexists. eexists.
  split; [apply (right_list_run generate_choices self st' s Hlink') |].
  split; [apply (left_list_run generate_choices self st' s Hlink') |].
  split.
  - apply filter_In. now split.
  - intros Havailable. apply available_iff in Havailable as [_ Hout].
    congruence.
Qed.

(** X6.  After a document type has been removed from a smart link, the
    right list is built from a queryset that does not hold it, and the left
    list from one that holds it whenever it is in the table; [remove]
    returns normally, also when the type was not assigned. *)
Theorem removed_document_type_is_available
    (Choice : Type) (generate_choices : list DocumentType -> list Choice)
    (self : View) (item : DocumentType) (st : State) (s : SmartLink) :
  find (fun o => smart_link_pk o =? smart_link_id (kwargs self))
    (smart_links (store st)) = Some s ->
  let st' := snd (remove self item st) in
  fst (remove self item st) = Return tt /\
  exists enabled_types available,
    right_list Choice generate_choices self st' =
    (Return (generate_choices enabled_types), st') /\
    left_list Choice generate_choices self st' =
    (Return (generate_choices available), st') /\
    ~ In item enabled_types /\
    (In item (document_types (store st)) -> In item available).
Proof.
  intros Hlink st'.
  pose proof (remove_frame self item st) as Hframe. fold st' in Hframe.
  pose proof (found_after self s Hframe Hlink) as Hlink'.
  assert (Hout : assigned (store st') s item = false).
  { unfold st'. rewrite (assigned_after_remove self item st s s item Hlink).
    rewrite !Z.eqb_refl. apply andb_false_r. }
  split; [now rewrite (remove_run self item st s Hlink) |].
  eexists. eexists.
  split; [apply (right_list_run generate_choices self st' s Hlink') |].
  split; [apply (left_list_run generate_choices self st' s Hlink') |].
  split.
  - intros Hlisted. apply filter_In in Hlisted as [_ Hassigned]. congruence.
  - intros Hin. apply available_iff. split; [| exact Hout].
    destruct Hframe as [_ [Htypes _]]. now rewrite Htypes.
Qed.

(** X7.  Adding a stored document type that was not assigned and removing
    it again restores the state exactly. *)
Theorem add_then_remove_restores
    (self : View) (item : DocumentType) (st : State) (s : SmartLink) :
  find (fun o => smart_link_pk o =? smart_link_id (kwargs self))
    (smart_links (store st)) = Some s ->
  In item (document_types (store st)) ->
  assigned (store st) s item = false ->
  (add self item ;; remove self item) st = (Return tt, st).
Proof.
  intros Hlink Hin Hout. unfold bind.
  rewrite (add_run self item st s Hlink), Hout,
    (known_type_of_member _ _ Hin).
  rewrite (remove_run self item _ s); [| exact Hlink].
  destruct st as [db msgs tr]. destruct db as [docs types links conds rows acc].
  unfold assigned in Hout. unfold with_assignment. simpl in *.
  rewrite filter_app. simpl. rewrite is_row_pair, !Z.eqb_refl. simpl.
  now rewrite (filter_keeps_all _ _ Hout), app_nil_r.
Qed.



(** X9.  [add] and [remove] change nothing but the rows of the through
    table: documents, document types, smart links, conditions, access
    decisions, messages and trace stay as they were, and so does the
    assignment of every other pair of smart link and document type. *)
Theorem add_and_remove_touch_one_assignment
    (self : View) (item : DocumentType) (st : State) :
  same_but_assignments st (snd (add self item st)) /\
  same_but_assignments st (snd (remove self item st)) /\
  (forall s' t',
     smart_link_pk s' <> smart_link_id (kwargs self) \/
     document_type_pk t' <> document_type_pk item ->
     assigned (store (snd (add self item st))) s' t' =
     assigned (store st) s' t' /\
     assigned (store (snd (remove self item st))) s' t' =
     assigned (store st) s' t').
Proof.
  split; [apply add_frame |]. split; [apply remove_frame |].
  intros s' t' Hother.
  destruct (find (fun o => smart_link_pk o =? smart_link_id (kwargs self))
              (smart_links (store st))) as [s |] eqn:Hlink.
  - rewrite (assigned_after_add self item st s s' t' Hlink).
    rewrite (assigned_after_remove self item st s s' t' Hlink).
    apply found_has_key in Hlink as [_ Hkey].
    assert (Hsame : (smart_link_pk s' =? smart_link_pk s)
                    && (document_type_pk t' =? document_type_pk item)
                    = false).
    { apply andb_false_iff. rewrite Hkey.
      destruct Hother as [Hs | Ht]; [left | right]; now apply Z.eqb_neq. }
    rewrite Hsame. simpl. now rewrite andb_false_r, orb_false_r, andb_true_r.
  - now rewrite (add_missing self item st Hlink),
      (remove_missing self item st Hlink).
Qed.

Lemma add_then {A} self item (m : M A) st s :
  find (fun o => smart_link_pk o =? smart_link_id (kwargs self))
    (smart_links (store st)) = Some s ->
  known_type (store st) item = true ->
  (add self item ;; m) st = m (snd (add self item st)).
Proof.
  intros Hlink Hknown. unfold bind.
  rewrite (add_run self item st s Hlink), Hknown.
  now destruct (assigned (store st) s item).
Qed.

Lemma lists_agree {Choice} (gen : list DocumentType -> list Choice)
    self st st' s :
  find (fun o => smart_link_pk o =? smart_link_id (kwargs self))
    (smart_links (store st)) = Some s ->
  find (fun o => smart_link_pk o =? smart_link_id (kwargs self))
    (smart_links (store st')) = Some s ->
  document_types (store st) = document_types (store st') ->
  (forall t, assigned (store st) s t = assigned (store st') s t) ->
  fst (right_list Choice gen self st) = fst (right_list Choice gen self st')
  /\ fst (left_list Choice gen self st) = fst (left_list Choice gen self st').
Proof.
  intros Hlink Hlink' Htypes Hassigned.
  rewrite (right_list_run gen self st s Hlink),
    (right_list_run gen self st' s Hlink'),
    (left_list_run gen self st s Hlink),
    (left_list_run gen self st' s Hlink').
  assert (Hall : document_types_all (store st) s =
                 document_types_all (store st') s).
  { unfold document_types_all. rewrite Htypes. now apply filter_ext. }
  simpl. now rewrite Hall, Htypes.
Qed.

(** X10.  Adding two stored document types to a smart link in either
    order gives the same left list and the same right list. *)
Theorem adding_in_either_order_lists_the_same
    (Choice : Type) (generate_choices : list DocumentType -> list Choice)
    (self : View) (a b : DocumentType) (st : State) :
  In a (document_types (store st)) ->
  In b (document_types (store st)) ->
  let st_ab := snd ((add self a ;; add self b) st) in
  let st_ba := snd ((add self b ;; add self a) st) in
  fst (right_list Choice generate_choices self st_ab) =
  fst (right_list Choice generate_choices self st_ba) /\
  fst (left_list Choice generate_choices self st_ab) =
  fst (left_list Choice generate_choices self st_ba).
Proof.
  intros Hin_a Hin_b st_ab st_ba.
  pose proof (known_type_of_member _ _ Hin_a) as Hknown_a.
  pose proof (known_type_of_member _ _ Hin_b) as Hknown_b.
  destruct (find (fun o => smart_link_pk o =? smart_link_id (kwargs self))
              (smart_links (store st))) as [s |] eqn:Hlink.
  - pose proof (add_frame self a st) as Ha.
    pose proof (add_frame self b st) as Hb.
    pose proof (found_after self s Ha Hlink) as Hlink_a.
    pose proof (found_after self s Hb Hlink) as Hlink_b.
    pose proof (add_frame self b (snd (add self a st))) as Hab.
    pose proof (add_frame self a (snd (add self b st))) as Hba.
    assert (Hknown_ab : known_type (store (snd (add self a st))) b = true).
    { unfold known_type. destruct Ha as [_ [Ha _]]. now rewrite Ha. }
    assert (Hknown_ba : known_type (store (snd (add self b st))) a = true).
    { unfold known_type. destruct Hb as [_ [Hb _]]. now rewrite Hb. }
    unfold st_ab, st_ba.
    rewrite (add_then self a _ st s Hlink Hknown_a),
      (add_then self b _ st s Hlink Hknown_b).
    apply (lists_agree generate_choices self _ _ s).
    + exact (found_after self s Hab Hlink_a).
    + exact (found_after self s Hba Hlink_b).
    + destruct Ha as [_ [Ha _]], Hb as [_ [Hb _]], Hab as [_ [Hab _]],
        Hba as [_ [Hba _]]. congruence.
    + intros t.
      rewrite (assigned_after_add self b _ s s t Hlink_a),
        (assigned_after_add self a st s s t Hlink),
        (assigned_after_add self a _ s s t Hlink_b),
        (assigned_after_add self b st s s t Hlink).
      rewrite Hknown_a, Hknown_b, Hknown_ab, Hknown_ba. simpl.
      rewrite <- !orb_assoc. f_equal. apply orb_comm.
  - assert (Hab : st_ab = st).
    { unfold st_ab, bind, add, get_object. unfold bind.
      now rewrite (get_object_or_404_missing _ _ _ _ _ Hlink). }
    assert (Hba : st_ba = st).
    { unfold st_ba, bind, add, get_object. unfold bind.
      now rewrite (get_object_or_404_missing _ _ _ _ _ Hlink). }
    now rewrite Hab, Hba.
Qed.

Lemma adding_in_either_order_lists_the_same_witness :
  fst (right_list _ choices (as_user editor 1 11 0)
         (snd ((add (as_user editor 1 11 0) type_invoice ;;
                add (as_user editor 1 11 0) type_receipt) st0))) =
  fst (right_list _ choices (as_user editor 1 11 0)
         (snd ((add (as_user editor 1 11 0) type_receipt ;;
                add (as_user editor 1 11 0) type_invoice) st0))).
Proof.
  exact (proj1 (adding_in_either_order_lists_the_same _ choices
                  (as_user editor 1 11 0) type_invoice type_receipt st0
                  (or_introl eq_refl) (or_intror (or_introl eq_refl)))).
Defined.

Lemma added_document_type_is_listed_witness :
  exists enabled_types available,
    right_list _ choices (as_user editor 1 10 0)
      (snd (add (as_user editor 1 10 0) type_receipt st0)) =
    (Return (choices enabled_types),
     snd (add (as_user editor 1 10 0) type_receipt st0)) /\
    left_list _ choices (as_user editor 1 10 0)
      (snd (add (as_user editor 1 10 0) type_receipt st0)) =
    (Return (choices available),
     snd (add (as_user editor 1 10 0) type_receipt st0)) /\
    In type_receipt enabled_types /\ ~ In type_receipt available.
Proof.
  exact (proj2 (added_document_type_is_listed _ choices
                  (as_user editor 1 10 0) type_receipt st0 related_invoices
                  eq_refl (or_intror (or_introl eq_refl)))).
Defined.

Lemma removed_document_type_is_available_witness :
  exists enabled_types available,
    right_list _ choices (as_user editor 1 10 0)
      (snd (remove (as_user editor 1 10 0) type_invoice st0)) =
    (Return (choices enabled_types),
     snd (remove (as_user editor 1 10 0) type_invoice st0)) /\
    left_list _ choices (as_user editor 1 10 0)
      (snd (remove (as_user editor 1 10 0) type_invoice st0)) =
    (Return (choices available),
     snd (remove (as_user editor 1 10 0) type_invoice st0)) /\
    ~ In type_invoice enabled_types /\
    (In type_invoice (document_types (store st0)) ->
     In type_invoice available).
Proof.
  exact (proj2 (removed_document_type_is_available _ choices
                  (as_user editor 1 10 0) type_invoice st0 related_invoices
                  eq_refl)).
Defined.

Lemma add_then_remove_restores_witness :
  (add (as_user editor 1 10 0) type_receipt ;;
   remove (as_user editor 1 10 0) type_receipt) st0 = (Return tt, st0).
Proof.
  exact (add_then_remove_restores (as_user editor 1 10 0) type_receipt st0
           related_invoices eq_refl (or_intror (or_introl eq_refl))
           eq_refl).
Defined.

Lemma add_and_remove_touch_one_assignment_witness :
  assigned
    (store (snd (add (as_user editor 1 11 0) type_receipt st0)))
    related_invoices type_invoice = true /\
  assigned
    (store (snd (remove (as_user editor 1 10 0) type_receipt st0)))
    related_invoices type_invoice = true.
Proof.
  destruct (add_and_remove_touch_one_assignment (as_user editor 1 11 0)
              type_receipt st0) as [_ [_ Hadd]].
  destruct (add_and_remove_touch_one_assignment (as_user editor 1 10 0)
              type_receipt st0) as [_ [_ Hremove]].
  assert (Hlink : smart_link_pk related_invoices <>
                  smart_link_id (kwargs (as_user editor 1 11 0)))
    by (simpl; lia).
  assert (Htype : document_type_pk type_invoice <>
                  document_type_pk type_receipt)
    by (simpl; lia).
  split.
  - rewrite (proj1 (Hadd related_invoices type_invoice (or_introl Hlink))).
    reflexivity.
  - rewrite (proj2 (Hremove related_invoices type_invoice
                      (or_intror Htype))).
    reflexivity.
Defined.

(** ** Conditions and redirects *)

Lemma conditions_all_iff db s c :
  In c (conditions_all db s) <->
  In c (conditions db) /\ condition_smart_link_id c = smart_link_pk s.
Proof.
  unfold conditions_all. now rewrite filter_In, Z.eqb_eq.
Qed.

(** X11.  The condition list of a smart link, and the queryset of the
    create view, hold exactly the conditions whose smart link is the one the
    request addresses; a condition of another smart link is never listed. *)
Theorem condition_list_shows_own_conditions
    (self : View) (st : State) (s : SmartLink) :
  find (fun o => smart_link_pk o =? smart_link_id (kwargs self))
    (smart_links (store st)) = Some s ->
  exists queryset,
    SmartLinkConditionListView.get_source_queryset self st =
    (Return queryset, st) /\
    SmartLinkConditionCreateView.get_queryset self st =
    (Return queryset, st) /\
    forall c,
      In c queryset <->
      In c (conditions (store st)) /\
      condition_smart_link_id c = smart_link_id (kwargs self).
Proof.
  intros Hlink. exists (conditions_all (store st) s).
  split; [| split].
  - unfold SmartLinkConditionListView.get_source_queryset,
      SmartLinkConditionListView.get_smart_link. unfold bind at 1.
    now rewrite (get_object_or_404_found _ _ _ _ _ _ Hlink).
  - unfold SmartLinkConditionCreateView.get_queryset,
      SmartLinkConditionCreateView.get_smart_link. unfold bind at 1.
    now rewrite (get_object_or_404_found _ _ _ _ _ _ Hlink).
  - intros c. rewrite conditions_all_iff.
    apply found_has_key in Hlink as [_ Hkey]. now rewrite Hkey.
Qed.

Lemma condition_list_shows_own_conditions_witness :
  exists queryset,
    SmartLinkConditionListView.get_source_queryset (as_user editor 1 10 0)
      st0 = (Return queryset, st0) /\
    SmartLinkConditionCreateView.get_queryset (as_user editor 1 10 0) st0 =
    (Return queryset, st0) /\
    forall c,
      In c queryset <->
      In c (conditions db) /\ condition_smart_link_id c = 10.
Proof.
  exact (condition_list_shows_own_conditions (as_user editor 1 10 0) st0
           related_invoices eq_refl).
Defined.

(** X12.  In the create view the smart link attached to the new condition
    is the one found for the request's [smart_link_id], and the redirect
    after creation goes to the condition list of that same id. *)
Theorem create_view_stays_with_its_smart_link
    (self : View) (st : State) (s : SmartLink) :
  find (fun o => smart_link_pk o =? smart_link_id (kwargs self))
    (smart_links (store st)) = Some s ->
  SmartLinkConditionCreateView.get_instance_extra_data self st =
  (Return [("smart_link"%string, s)], st) /\
  smart_link_pk s = smart_link_id (kwargs self) /\
  SmartLinkConditionCreateView.get_post_action_redirect self st =
  (Return
     (reverse "linking:smart_link_condition_list"
        [("smart_link_id"%string, smart_link_id (kwargs self))]), st).
Proof.
  intros Hlink.
  pose proof (found_has_key _ _ _ _ Hlink) as [_ Hkey].
  unfold SmartLinkConditionCreateView.get_instance_extra_data,
    SmartLinkConditionCreateView.get_post_action_redirect,
    SmartLinkConditionCreateView.get_smart_link, bind.
  rewrite (get_object_or_404_found _ _ _ _ _ _ Hlink). simpl.
  now rewrite Hkey.
Qed.

Lemma create_view_stays_with_its_smart_link_witness :
  SmartLinkConditionCreateView.get_post_action_redirect
    (as_user editor 1 10 0) st0 =
  (Return
     (reverse "linking:smart_link_condition_list"
        [("smart_link_id"%string, 10)]), st0).
Proof.
  exact (proj2 (proj2 (create_view_stays_with_its_smart_link
                         (as_user editor 1 10 0) st0 related_invoices
                         eq_refl))).
Defined.

(** X13.  After editing or deleting a condition the redirect goes to the
    condition list of the smart link the condition belongs to, and that
    list, in the state the redirect was computed in, shows the
    condition. *)
Theorem redirect_leads_to_the_list_of_the_condition
    (self : View) (st : State) (c : SmartLinkCondition) (s : SmartLink) :
  find (fun o => condition_pk o =? pk (kwargs self))
    (conditions (store st)) = Some c ->
  find (fun o => smart_link_pk o =? condition_smart_link_id c)
    (smart_links (store st)) = Some s ->
  let url :=
    reverse "linking:smart_link_condition_list"
      [("smart_link_id"%string, condition_smart_link_id c)] in
  SmartLinkConditionEditView.get_post_action_redirect self st =
  (Return url, st) /\
  SmartLinkConditionDeleteView.get_post_action_redirect self st =
  (Return url, st) /\
  (forall target,
     smart_link_id (kwargs target) = condition_smart_link_id c ->
     exists queryset,
       SmartLinkConditionListView.get_source_queryset target st =
       (Return queryset, st) /\
       In c queryset).
Proof.
  intros Hcond Hlink url.
  pose proof (found_has_key _ _ _ _ Hcond) as [Hin _].
  pose proof (found_has_key _ _ _ _ Hlink) as [_ Hkey].
  split; [| split].
  - unfold SmartLinkConditionEditView.get_post_action_redirect,
      get_condition_object. unfold bind at 1.
    rewrite (get_object_or_404_found _ _ _ _ _ _ Hcond). unfold bind at 1.
    rewrite (condition_smart_link_found _ _ _ Hlink). unfold ret, url.
    now rewrite Hkey.
  - unfold SmartLinkConditionDeleteView.get_post_action_redirect,
      get_condition_object. unfold bind at 1.
    rewrite (get_object_or_404_found _ _ _ _ _ _ Hcond). unfold bind at 1.
    rewrite (condition_smart_link_found _ _ _ Hlink). unfold ret, url.
    now rewrite Hkey.
  - intros target Htarget. exists (conditions_all (store st) s). split.
    + unfold SmartLinkConditionListView.get_source_queryset,
        SmartLinkConditionListView.get_smart_link. unfold bind at 1.
      rewrite <- Htarget in Hlink.
      now rewrite (get_object_or_404_found _ _ _ _ _ _ Hlink).
    + apply conditions_all_iff. now split.
Qed.

Lemma redirect_leads_to_the_list_of_the_condition_witness :
  SmartLinkConditionEditView.get_post_action_redirect
    (as_user editor 1 0 100) st0 =
  (Return
     (reverse "linking:smart_link_condition_list"
        [("smart_link_id"%string, 10)]), st0) /\
  exists queryset,
    SmartLinkConditionListView.get_source_queryset (as_user editor 0 10 0)
      st0 = (Return queryset, st0) /\
    In by_customer queryset.
Proof.
  destruct (redirect_leads_to_the_list_of_the_condition
              (as_user editor 1 0 100) st0 by_customer related_invoices
              eq_refl eq_refl) as [Hedit [_ Hlist]].
  split; [exact Hedit | exact (Hlist (as_user editor 0 10 0) eq_refl)].
Defined.

(** ** The template context of the resolved-documents view *)






(** X16.  An exception of [get_dynamic_label] is not caught by
    [get_extra_context]: it is raised on, with the state untouched and
    without the context of the list view being asked for. *)
Theorem dynamic_label_error_propagates
    (get_dynamic_label :
       Store -> SmartLink -> Document -> outcome (option string))
    (document_str : Document -> string)
    (base : Self -> M Context)
    (self : Self) (st : State) (e : Exception) :
  get_dynamic_label (store st) (smart_link self) (document self) = Raise e ->
  get_extra_context get_dynamic_label document_str base self st =
  (Raise e, st).
Proof.
  intros Hlabel. unfold get_extra_context, call_get_dynamic_label. run.
  now rewrite Hlabel.
Qed.

Lemma dynamic_label_error_propagates_witness :
  get_extra_context label_of document_name base_context
    (resolved viewer invoice_a same_vendor) st0 =
  (Raise (Error "Invalid template"), st0).
Proof.
  exact (dynamic_label_error_propagates label_of document_name base_context
           (resolved viewer invoice_a same_vendor) st0
           (Error "Invalid template") eq_refl).
Defined.

(** ** The template context of the condition views *)

(** X17.  In the three condition views the [object] of the template
    context is the smart link on which [dispatch] checks the edit
    permission: the one addressed by the request when creating, the one the
    condition belongs to when editing or deleting, where [condition] is the
    addressed condition. *)
Theorem condition_contexts_show_the_checked_smart_link
    (Response : Type) (base : View -> M Response)
    (smart_link_str : SmartLink -> string)
    (condition_str : SmartLinkCondition -> string)
    (self : View) (st : State) :
  (forall s,
     find (fun o => smart_link_pk o =? smart_link_id (kwargs self))
       (smart_links (store st)) = Some s ->
     exists context,
       SmartLinkConditionCreateView.get_extra_context smart_link_str self st
       = (Return context, st) /\
       dict_get "object" context = Some (CtxSmartLink s) /\
       SmartLinkConditionCreateView.dispatch Response base self st =
       edit_guard base self s st) /\
  (forall c s,
     find (fun o => condition_pk o =? pk (kwargs self))
       (conditions (store st)) = Some c ->
     find (fun o => smart_link_pk o =? condition_smart_link_id c)
       (smart_links (store st)) = Some s ->
     exists edit_context delete_context,
       SmartLinkConditionEditView.get_extra_context self st =
       (Return edit_context, st) /\
       SmartLinkConditionDeleteView.get_extra_context condition_str self st
       = (Return delete_context, st) /\
       dict_get "condition" edit_context = Some (CtxCondition c) /\
       dict_get "object" edit_context = Some (CtxSmartLink s) /\
       dict_get "condition" delete_context = Some (CtxCondition c) /\
       dict_get "object" delete_context = Some (CtxSmartLink s) /\
       smart_link_pk s = condition_smart_link_id c /\
       SmartLinkConditionEditView.dispatch Response base self st =
       edit_guard base self s st /\
       SmartLinkConditionDeleteView.dispatch Response base self st =
       edit_guard base self s st).
Proof.
  split.
  - intros s Hlink. eexists. split; [| split].
    + unfold SmartLinkConditionCreateView.get_extra_context,
        SmartLinkConditionCreateView.get_smart_link, bind.
      rewrite (get_object_or_404_found _ _ _ _ _ _ Hlink). cbv beta iota.
      rewrite (get_object_or_404_found _ _ _ _ _ _ Hlink). reflexivity.
    + reflexivity.
    + unfold SmartLinkConditionCreateView.dispatch,
        SmartLinkConditionCreateView.get_smart_link.
      unfold bind at 1. rewrite (get_object_or_404_found _ _ _ _ _ _ Hlink).
      apply edit_guard_run.
  - intros c s Hcond Hlink.
    pose proof (found_has_key _ _ _ _ Hlink) as [_ Hkey].
    eexists. eexists.
    split; [| split; [| split; [| split; [| split; [| split;
      [| split; [| split]]]]]]].
    + unfold SmartLinkConditionEditView.get_extra_context,
        get_condition_object, bind.
      rewrite (get_object_or_404_found _ _ _ _ _ _ Hcond). cbv beta iota.
      rewrite (get_object_or_404_found _ _ _ _ _ _ Hcond). cbv beta iota.
      rewrite (condition_smart_link_found _ _ _ Hlink). reflexivity.
    + unfold SmartLinkConditionDeleteView.get_extra_context,
        get_condition_object, bind.
      rewrite (get_object_or_404_found _ _ _ _ _ _ Hcond). cbv beta iota.
      rewrite (get_object_or_404_found _ _ _ _ _ _ Hcond). cbv beta iota.
      rewrite (condition_smart_link_found _ _ _ Hlink). cbv beta iota.
      rewrite (get_object_or_404_found _ _ _ _ _ _ Hcond). reflexivity.
    + reflexivity.
    + reflexivity.
    + reflexivity.
    + reflexivity.
    + exact Hkey.
    + unfold SmartLinkConditionEditView.dispatch, get_condition_object.
      unfold bind at 1. rewrite (get_object_or_404_found _ _ _ _ _ _ Hcond).
      unfold bind at 1. rewrite (condition_smart_link_found _ _ _ Hlink).
      apply edit_guard_run.
    + unfold SmartLinkConditionDeleteView.dispatch, get_condition_object.
      unfold bind at 1. rewrite (get_object_or_404_found _ _ _ _ _ _ Hcond).
      unfold bind at 1. rewrite (condition_smart_link_found _ _ _ Hlink).
      apply edit_guard_run.
Qed.

Lemma condition_contexts_show_the_checked_smart_link_witness :
  exists edit_context,
    SmartLinkConditionEditView.get_extra_context (as_user editor 1 0 100)
      st0 = (Return edit_context, st0) /\
    dict_get "object" edit_context = Some (CtxSmartLink related_invoices).
Proof.
  destruct (condition_contexts_show_the_checked_smart_link unit
              drop_conditions smart_link_label
              (fun c => target_field c) (as_user editor 1 0 100) st0)
    as [_ Hobject].
  destruct (Hobject by_customer related_invoices eq_refl eq_refl)
    as [edit_context [_ [Hrun [_ [_ [Hshown _]]]]]].
  exists edit_context. split; [exact Hrun | exact Hshown].
Defined.
